(* ===== verification/_CoqProject ===== *)
-Q . S2P
Prelude.v
Documents.v
Collection.v
Render.v
App.v
Manager.v
