(* ===== verification/Prelude.v ===== *)
(** * A verification development for the document catalog of [src/app.js]

    ** The program

    [src/app.js] is the whole client side of a document catalog that runs in
    a browser page.  Its state is one global array [documents] (lines 2-36)
    of records [{id, provider, name, type, date, file: {name, data}}] and the
    DOM it renders: a row of provider tabs under [#providerTabs] whose first
    child is the static "Todos" tab ([data-provider="all"]), a table body
    [#documentsBody], the upload form [#documentForm] with its file input,
    and the filter controls.  Every behaviour is an event handler:
    - [DOMContentLoaded] (lines 39-48) renders the tabs and the table;
    - the file input's [change] handler (44-47) updates the file-name label;
    - a provider tab's [click] handler (65-70) activates the tab and calls
      [filterByProvider] (76-81);
    - the form's [submit] handler (112-142) refuses a submission without a
      file (alert), otherwise starts a [FileReader]; its asynchronous
      [onload] callback (122-140) builds the record with id
      [documents.length + 1], appends it, re-renders and resets the form;
    - [applyFilter] (145-158) filters by the active tab and the type filter;
    - [resetFilter] (161-166) clears the filters;
    - [downloadDocument] (169-183) and [deleteDocument] (186-192) are called
      from the buttons of each row that [renderDocuments] (84-109) writes.

    ** The library

    - [Prelude] (this file): the scope [js_scope] with the JavaScript
      operators the code uses on strings ([===], truthiness, [||], number
      to string), the tactics [case_str]/[case_nat] and [catalog_simpl], the
      hint database [catalog], and the generic lemmas on [List.filter],
      [List.find] and [NoDup] that the components share.
    - [Documents]: the record types of lines 2-36 ([File.t], [Doc]) with
      decidable equality, and the initial array [initial_documents].
    - [Collection]: the pure array operations the handlers perform on
      [documents]: the provider list [providers_of] ([...new Set(...)] of
      line 53, with [new_Set] modelling the JavaScript [Set]),
      [filterByProvider_docs] (77-79), [applyFilter_docs] (149-155),
      [find_by_id] (170), [delete_by_id] (188), [new_doc_id] (124) and
      [push_doc] (135).  Theorems: [new_Set] equals the reference [nub]
      (first occurrences, in order); the filters keep exactly the matching
      records in order; deletion removes every record with the id; the
      id policy [length + 1] gives the ids [1..n] as long as nothing is
      deleted and collides with a live id after a deletion.

    - [Render]: [renderProviderTabs] (51-73), whose [while] loop is the
      fuelled [remove_extra_tabs] (fuel = number of children, enough by
      [remove_extra_tabs_le]), tab activation and the two [querySelector]
      lookups (146, 164), and [renderDocuments] (84-109) as the list of row
      [innerHTML] strings.  Theorems: the re-rendered tabs are the first
      child followed by one inactive tab per provider in first-seen order;
      the row template is not escaped (a provider holding the markup
      between two cells renders the row of a different record); the
      buttons of a row call [downloadDocument] and [deleteDocument] with
      the record's id, read back from the row's quoted attribute values by
      the reference scanner [split_quotes]/[row_onclicks] (a round trip
      through the markup, for fields without a double quote).
    - [App]: the page state [Page] (documents, tabs, rows, form fields and
      selected file, file-name label, type filter, pending [FileReader]s,
      alerts, downloads), one handler per listener of the source returning
      [Done] or [Threw] (a [TypeError] keeps the effects made before it),
      [step] on events, [run] on event lists, and [reachable] from the
      loaded page.  Theorems: the page invariant [page_inv] holds in every
      reachable state (rule induction) and so does record well-formedness
      (positive id, file payload); ids stay [1..n] under any events without
      a confirmed deletion; the ordering behaviours of the asynchronous
      [FileReader] (a second pending load throws once the form is reset;
      the stored file name is the one selected when the load completes;
      every pending read completes); the [TypeError] of [applyFilter] once
      a re-render drops the active tab, and the recovery by [resetFilter];
      the type filter and its empty-state row; the error paths of submit
      and download.
    - [Manager]: the spec's manager (section 4.1): the reference
      definitions [spec_delete] (remove the one record [list_find] finds,
      report whether one was removed) and [spec_payload], and an abstract
      machine [manager_step] written without the code's operations: [add]
      appends a record carrying a payload whose id is the sequential
      [length + 1] the spec allows, [delete] is the relation [drop_id]
      (the records of the id removed, the others kept in order).
      Refinement theorems: deletion agrees with the spec while ids are
      unique; [downloadDocument] downloads exactly when the spec's payload
      exists; every reachable page's array is reachable by the abstract
      machine (simulation by rule induction on [reachable]).

    ** Assumptions about the page, which is not in the repository

    The static HTML is not part of the sources: the model takes the first
    child of [#providerTabs] to be an active tab with [data-provider="all"]
    ([todos_tab]), [form.reset()] to empty the four fields and the file
    input ([reset_form]), and the type filter to lie outside the form.  The
    "Todos" tab's own click handler is not in [app.js]; clicking it is a
    no-op of the model.  The browser's [FileReader] encoding is not
    modelled: a selected file comes with the data URL it reads to, and the
    order in which pending readers load is the choice of the event list.
    The HTML parser is not modelled: [row_onclicks] reads the double-quoted
    attribute values of a row, which is how the browser reads its
    [onclick] attributes as long as no field holds a double quote.

    ** Bounds and fuel

    Only the tab loop needs fuel; every other function is structural on a
    list.  Ids are [nat] since the code only produces them as
    [length + 1]; numbers are written in decimal by [js_number_string]
    and read back by [js_parse_number]. *)

From stdpp Require Export base list strings.
From Stdlib Require Export DecimalString DecimalNat.

(** ** JavaScript operators on the values of the program *)

Declare Scope js_scope.
Delimit Scope js_scope with js.

(** Strict equality [===] on strings. *)
Notation "a === b" := (String.eqb a b) (at level 70, no associativity) : js_scope.

(** A string is truthy iff it is not empty ([if (filterType)], line 153). *)
Definition js_truthy (s : string) : bool :=
  match s with
  | EmptyString => false
  | String _ _ => true
  end.

(** [a || b] on strings (line 178). *)
Definition js_or (a b : string) : string := if js_truthy a then a else b.

Notation "a '||s' b" := (js_or a b) (at level 50, left associativity) : js_scope.

(** The decimal text of a non-negative integer number, as a template
    literal [${n}] writes it (lines 103, 104, 178). *)
Definition js_number_string (n : nat) : string :=
  NilEmpty.string_of_uint (Nat.to_uint n).

(** The number a decimal literal denotes ([Number(s)] for digit strings),
    [None] when the text is not a decimal literal. *)
Definition js_parse_number (s : string) : option nat :=
  match NilEmpty.uint_of_string s with
  | Some u => Some (Nat.of_uint u)
  | None => None
  end.

Open Scope js_scope.

(** ** Tactics *)

Create HintDb catalog discriminated.
Create Rewrite HintDb catalog_rw.

(** Case analysis on a string or number comparison of the goal. *)
Ltac case_str :=
  match goal with
  | |- context [String.eqb ?a ?b] => destruct (String.eqb_spec a b)
  | H : context [String.eqb ?a ?b] |- _ => destruct (String.eqb_spec a b)
  end.

Ltac case_nat :=
  match goal with
  | |- context [Nat.eqb ?a ?b] => destruct (Nat.eqb_spec a b)
  | H : context [Nat.eqb ?a ?b] |- _ => destruct (Nat.eqb_spec a b)
  end.

(** Simplify, split the comparisons and close by congruence or the hints. *)
Ltac catalog_simpl :=
  simpl in *; repeat (case_str || case_nat); subst; simpl in *;
  try congruence; try solve [eauto with catalog].

(** ** Generic lemmas on the operators *)

Lemma js_truthy_false s : js_truthy s = false <-> s = "".
Proof. destruct s; simpl; split; congruence. Qed.

Lemma js_truthy_eqb_empty s : negb (js_truthy s) = (s === "").
Proof. by destruct s. Qed.

Lemma js_or_truthy a b : js_truthy a = true -> js_or a b = a.
Proof. unfold js_or. by intros ->. Qed.

Lemma js_or_empty b : js_or "" b = b.
Proof. reflexivity. Qed.

(** Reading back the decimal text of a number gives the number. *)
Lemma js_parse_number_string n : js_parse_number (js_number_string n) = Some n.
Proof.
  unfold js_parse_number, js_number_string. rewrite NilEmpty.usu.
  f_equal. apply Unsigned.of_to.
Qed.

Lemma js_number_string_inj n m : js_number_string n = js_number_string m -> n = m.
Proof.
  intros H. apply (f_equal js_parse_number) in H.
  rewrite !js_parse_number_string in H. congruence.
Qed.

(** ** Generic lemmas on strings *)

(** [String.append] does not unfold under [simpl] once stdpp is loaded. *)
Lemma string_app_cons (c : Ascii.ascii) (s t : string) : String c s +:+ t = String c (s +:+ t).
Proof. reflexivity. Qed.

Lemma string_app_assoc (s t u : string) : (s +:+ t) +:+ u = s +:+ t +:+ u.
Proof. induction s as [|c s IH]; [done|]. exact (f_equal (String c) IH). Qed.

Lemma string_app_nil_r (s : string) : s +:+ "" = s.
Proof. induction s as [|c s IH]; [done|]. exact (f_equal (String c) IH). Qed.

#[export] Hint Rewrite string_app_cons string_app_assoc string_app_nil_r : catalog_rw.

(** ** Generic lemmas on lists *)

Section ListFacts.
Context {A : Type}.
Implicit Types (l : list A) (f g : A -> bool).

Lemma filter_all_true f l :
  (forall x, In x l -> f x = true) -> List.filter f l = l.
Proof.
  induction l as [|x l IH]; intros Hall; simpl; [done|].
  rewrite Hall by (left; done). f_equal. apply IH. intros; apply Hall; by right.
Qed.

Lemma filter_none_true f l :
  (forall x, In x l -> f x = false) -> List.filter f l = [].
Proof.
  induction l as [|x l IH]; intros Hall; simpl; [done|].
  rewrite Hall by (left; done). apply IH. intros; apply Hall; by right.
Qed.

Lemma filter_filter_andb f g l :
  List.filter g (List.filter f l) = List.filter (fun x => f x && g x) l.
Proof.
  induction l as [|x l IH]; simpl; [done|].
  destruct (f x); simpl; destruct (g x); simpl; by rewrite IH.
Qed.

(** A filter applied under a condition is a filter by the implication. *)
Lemma filter_if_bool (b : bool) f l :
  (if b then List.filter f l else l) = List.filter (fun x => negb b || f x) l.
Proof. destruct b; simpl; [done|]. symmetry. by apply filter_all_true. Qed.

Lemma filter_sublist_of f l : List.filter f l `sublist_of` l.
Proof.
  induction l as [|x l IH]; simpl; [done|].
  destruct (f x); by constructor.
Qed.

Lemma NoDup_filter_bool f l : NoDup l -> NoDup (List.filter f l).
Proof. intros H. eapply sublist_NoDup; eauto using filter_sublist_of. Qed.

Lemma Forall_filter_bool (P : A -> Prop) f l :
  Forall P l -> Forall P (List.filter f l).
Proof.
  rewrite !Forall_forall. intros H x Hx. apply list_elem_of_In, filter_In in Hx.
  apply H, list_elem_of_In, Hx.
Qed.

Lemma find_first f l x :
  List.find f l = Some x ->
  exists pre post, l = pre ++ x :: post /\ f x = true /\
                   forall y, In y pre -> f y = false.
Proof.
  induction l as [|y l IH]; simpl; [done|].
  destruct (f y) eqn:Hy.
  - intros [= <-]. exists [], l. naive_solver.
  - intros Hf. destruct (IH Hf) as (pre & post & -> & Hx & Hpre).
    exists (y :: pre), post. split; [done|]. split; [done|].
    intros z [<-|Hz]; auto.
Qed.
End ListFacts.

#[export] Hint Resolve filter_sublist_of NoDup_filter_bool Forall_filter_bool : catalog.
#[export] Hint Resolve js_parse_number_string : catalog.
