(* ===== verification/Documents.v ===== *)
(** * The records of the catalog ([src/app.js], lines 2-36 and 123-133)

    A document is an object [{id, provider, name, type, date, file}] whose
    [file] is an object [{name, data}]: the original file name and the
    data URL that [FileReader.readAsDataURL] produced.  [file] is an
    [option] because [downloadDocument] tests [!doc.file] (line 171). *)

From S2P Require Import Prelude.

Module File.
(** The [file] object of a record (lines 9-12, 129-132). *)
Record t := mk { name : string; data : string }.
End File.

#[export] Instance File_eq_dec : EqDecision File.t.
Proof. solve_decision. Defined.

(** A record of [documents] (lines 3-13, 123-133). *)
Record Doc := mkDoc {
  id : nat;
  provider : string;
  name : string;
  type : string;
  date : string;
  file : option File.t
}.

#[export] Instance Doc_eq_dec : EqDecision Doc.
Proof. solve_decision. Defined.

(** The ids of an array of records, in order. *)
Definition ids (docs : list Doc) : list nat := map id docs.

(** The data URL of the three sample files (lines 11, 22, 33). *)
Definition sample_pdf_data : string :=
  "data:application/pdf;base64,JVBERi0xLjQKJ...".

(** The initial value of [documents] (lines 2-36). *)
Definition initial_documents : list Doc := [
  {| id := 1; provider := "Proveedor A"; name := "Contrato de Servicios 2024";
     type := "Contrato"; date := "2024-01-15";
     file := Some (File.mk "contrato_servicios.pdf" sample_pdf_data) |};
  {| id := 2; provider := "Proveedor A"; name := "Factura #001-2024";
     type := "Factura"; date := "2024-02-20";
     file := Some (File.mk "factura_001.pdf" sample_pdf_data) |};
  {| id := 3; provider := "Proveedor B"; name := "Certificado de Calidad";
     type := "Certificado"; date := "2024-03-10";
     file := Some (File.mk "certificado_calidad.pdf" sample_pdf_data) |}
].

(** Every record carries a file (the creation invariant of the array). *)
Definition has_file (d : Doc) : bool :=
  match file d with Some _ => true | None => false end.

Definition all_have_files (docs : list Doc) : Prop :=
  Forall (fun d => has_file d = true) docs.

Lemma ids_app (l1 l2 : list Doc) : ids (l1 ++ l2) = ids l1 ++ ids l2.
Proof. apply map_app. Qed.

Lemma length_ids (docs : list Doc) : length (ids docs) = length docs.
Proof. apply length_map. Qed.

Lemma all_have_files_app (l1 l2 : list Doc) :
  all_have_files l1 -> all_have_files l2 -> all_have_files (l1 ++ l2).
Proof. intros; by apply Forall_app_2. Qed.

#[export] Hint Resolve all_have_files_app : catalog.
#[export] Hint Rewrite ids_app length_ids : catalog_rw.
