(* ===== verification/Collection.v ===== *)
(** * The operations of the handlers on the array [documents]

    Each definition is the array computation one handler of [src/app.js]
    performs, without its rendering: the provider list of
    [renderProviderTabs] (line 53), the filters of [filterByProvider]
    (77-79) and of the [applyFilter] handler (149-155), the lookup of
    [downloadDocument] (170), the removal of [deleteDocument] (188) and the
    id and append of the [FileReader] callback (124, 135).  The [App] file
    composes them with the DOM updates. *)

From S2P Require Import Prelude Documents.

(** ** The JavaScript [Set] of strings *)

(** [Set.prototype.add]: a value already present is ignored, a new one
    goes after the others (insertion order is iteration order). *)
Definition set_add (s : list string) (x : string) : list string :=
  if existsb (String.eqb x) s then s else s ++ [x].

(** [[...new Set(xs)]]: the constructor adds the values in order and the
    spread lists them in insertion order. *)
Definition new_Set (xs : list string) : list string := fold_left set_add xs [].

(** The providers of the tabs (line 53). *)
Definition providers_of (docs : list Doc) : list string :=
  new_Set (map provider docs).

(** The reference: each value at its first occurrence, in order. *)
Fixpoint nub (xs : list string) : list string :=
  match xs with
  | [] => []
  | x :: xs' => x :: List.filter (fun y => negb (y === x)) (nub xs')
  end.

(** ** Filters *)

(** [filterByProvider] (lines 77-79): ['all'] selects the whole array. *)
Definition filterByProvider_docs (p : string) (docs : list Doc) : list Doc :=
  if p === "all" then docs
  else List.filter (fun doc => provider doc === p) docs.

(** The [applyFilter] handler (lines 149-155). *)
Definition applyFilter_docs (activeProvider filterType : string)
    (docs : list Doc) : list Doc :=
  let filteredDocs := docs in
  let filteredDocs :=
    if negb (activeProvider === "all")
    then List.filter (fun doc => provider doc === activeProvider) filteredDocs
    else filteredDocs in
  if js_truthy filterType
  then List.filter (fun doc => type doc === filterType) filteredDocs
  else filteredDocs.

(** The reference predicate: the provider matches unless the sentinel
    ['all'] is given, and the type matches unless the type filter is empty. *)
Definition filter_matches (activeProvider filterType : string) (d : Doc) : bool :=
  ((activeProvider === "all") || (provider d === activeProvider)) &&
  ((filterType === "") || (type d === filterType)).

(** ** Lookup, removal, insertion *)

(** [documents.find(d => d.id === id)] (line 170). *)
Definition find_by_id (i : nat) (docs : list Doc) : option Doc :=
  List.find (fun d => Nat.eqb (id d) i) docs.

(** [documents.filter(doc => doc.id !== id)] (line 188). *)
Definition delete_by_id (i : nat) (docs : list Doc) : list Doc :=
  List.filter (fun doc => negb (Nat.eqb (id doc) i)) docs.

(** [documents.length + 1] (line 124). *)
Definition new_doc_id (docs : list Doc) : nat := length docs + 1.

(** [documents.push(newDoc)] (line 135). *)
Definition push_doc (docs : list Doc) (d : Doc) : list Doc := docs ++ [d].

(** The id invariant that holds as long as nothing is deleted: the ids are
    [1, 2, ..., n] in order. *)
Definition ids_sequential (docs : list Doc) : Prop :=
  ids docs = seq 1 (length docs).

Definition sample_new_doc (i : nat) : Doc :=
  mkDoc i "Proveedor C" "Acta de Entrega" "Acta" "2024-05-01"
        (Some (File.mk "acta.pdf" sample_pdf_data)).

(** ** The Set model *)

Lemma existsb_eqb_In (x : string) (s : list string) :
  existsb (String.eqb x) s = true <-> In x s.
Proof.
  rewrite existsb_exists. split.
  - intros (y & Hy & Heq). apply String.eqb_eq in Heq. by subst.
  - intros Hx. exists x. split; [done|]. apply String.eqb_refl.
Qed.

Lemma In_nub (x : string) (xs : list string) : In x (nub xs) <-> In x xs.
Proof.
  induction xs as [|y xs IH]; simpl; [done|].
  rewrite filter_In, IH. destruct (String.eqb_spec x y); simpl; naive_solver.
Qed.

Lemma NoDup_nub (xs : list string) : NoDup (nub xs).
Proof.
  induction xs as [|y xs IH]; simpl; constructor.
  - rewrite list_elem_of_In, filter_In. case_str; simpl; naive_solver.
  - by apply NoDup_filter_bool.
Qed.

(** The invariant of the fold: the accumulated set followed by the first
    occurrences of the values still to add that it does not hold. *)
Lemma fold_set_add (xs acc : list string) :
  fold_left set_add xs acc =
  acc ++ List.filter (fun y => negb (existsb (String.eqb y) acc)) (nub xs).
Proof.
  revert acc. induction xs as [|x xs IH]; intros acc; simpl; [by rewrite app_nil_r|].
  rewrite IH. unfold set_add. destruct (existsb (String.eqb x) acc) eqn:Hx; simpl.
  - f_equal. rewrite filter_filter_andb. apply filter_ext.
    intros y. destruct (String.eqb_spec y x); simpl; [subst; by rewrite Hx|].
    by destruct (existsb _ acc).
  - rewrite <- app_assoc. simpl. f_equal. f_equal.
    rewrite filter_filter_andb. apply filter_ext. intros y.
    rewrite existsb_app. simpl. rewrite orb_false_r.
    destruct (String.eqb_spec y x); simpl; [subst; by rewrite Hx, orb_true_r|].
    rewrite orb_false_r. by destruct (existsb _ acc).
Qed.

(** ** Filters *)

Lemma filter_matches_all_any (d : Doc) : filter_matches "all" "" d = true.
Proof. reflexivity. Qed.

Lemma filter_provider_sublist (p : string) (docs : list Doc) :
  filterByProvider_docs p docs `sublist_of` docs.
Proof. unfold filterByProvider_docs. case_str; [done|apply filter_sublist_of]. Qed.

(** ** Ids *)

Lemma In_delete_by_id (i : nat) (d : Doc) (docs : list Doc) :
  In d (delete_by_id i docs) <-> In d docs /\ id d <> i.
Proof.
  unfold delete_by_id. rewrite filter_In.
  destruct (Nat.eqb_spec (id d) i); simpl; naive_solver.
Qed.

Lemma ids_sequential_push (docs : list Doc) (d : Doc) :
  ids_sequential docs -> id d = new_doc_id docs ->
  ids_sequential (push_doc docs d).
Proof.
  unfold ids_sequential, push_doc, new_doc_id. intros Hs Hd.
  rewrite ids_app, Hs, length_app. simpl. rewrite Hd, Nat.add_1_r, seq_S.
  f_equal.
Qed.

Lemma ids_sequential_NoDup (docs : list Doc) :
  ids_sequential docs -> NoDup (ids docs).
Proof. unfold ids_sequential. intros ->. apply NoDup_ListNoDup, seq_NoDup. Qed.

#[export] Hint Resolve NoDup_nub ids_sequential_push ids_sequential_NoDup : catalog.

Lemma delete_by_id_cons (i : nat) (d : Doc) (docs : list Doc) :
  delete_by_id i (d :: docs) =
  if Nat.eqb (id d) i then delete_by_id i docs else d :: delete_by_id i docs.
Proof. unfold delete_by_id. simpl. by destruct (Nat.eqb (id d) i). Qed.

Lemma ids_delete_by_id (i : nat) (docs : list Doc) :
  ids (delete_by_id i docs) = List.filter (fun j => negb (Nat.eqb j i)) (ids docs).
Proof.
  induction docs as [|d docs IH]; simpl; [done|].
  destruct (Nat.eqb (id d) i); simpl; by rewrite IH.
Qed.

Lemma delete_by_id_absent (i : nat) (docs : list Doc) :
  ~ In i (ids docs) -> delete_by_id i docs = docs.
Proof.
  intros Hi. apply filter_all_true. intros d Hd.
  destruct (Nat.eqb_spec (id d) i) as [<-|]; [|done].
  exfalso. apply Hi, in_map, Hd.
Qed.

Lemma length_delete_by_id (i : nat) (docs : list Doc) :
  NoDup (ids docs) -> In i (ids docs) ->
  length (delete_by_id i docs) = length docs - 1.
Proof.
  induction docs as [|d docs IH]; [done|].
  rewrite delete_by_id_cons. cbn [ids map length]. rewrite NoDup_cons.
  intros [Hd Hnd] Hi.
  destruct (Nat.eqb_spec (id d) i) as [<-|Hne]; simpl.
  - rewrite (delete_by_id_absent (id d) docs); [lia|by rewrite <- list_elem_of_In].
  - destruct Hi as [|Hi]; [done|]. rewrite IH by done.
    destruct docs; simpl in *; [done|lia].
Qed.

Lemma In_seq_last (n : nat) : 1 <= n -> In n (seq 1 n).
Proof. intros H. apply in_seq. lia. Qed.

Lemma find_by_id_delete (i : nat) (docs : list Doc) :
  find_by_id i (delete_by_id i docs) = None.
Proof.
  destruct (find_by_id i (delete_by_id i docs)) as [d|] eqn:Hf; [|done].
  unfold find_by_id in Hf. apply find_some in Hf as [Hd Hid].
  apply In_delete_by_id in Hd as [_ Hne]. by apply Nat.eqb_eq in Hid.
Qed.

Lemma providers_of_nub (docs : list Doc) : providers_of docs = nub (map provider docs).
Proof.
  unfold providers_of, new_Set. rewrite fold_set_add. simpl. by apply filter_all_true.
Qed.

Lemma applyFilter_docs_filter (activeProvider filterType : string) (docs : list Doc) :
  applyFilter_docs activeProvider filterType docs =
  List.filter (filter_matches activeProvider filterType) docs.
Proof.
  unfold applyFilter_docs, filter_matches.
  by rewrite !filter_if_bool, filter_filter_andb, negb_involutive, js_truthy_eqb_empty.
Qed.

(** ** Properties of the array operations *)

(** C5: The provider list of the tabs, [[...new Set(documents.map(doc =>
    doc.provider))]], is the list of the providers at their first
    occurrence, in the order of the array: without duplicates, and holding
    exactly the providers of the records. *)
Theorem providers_of_first_occurrences (docs : list Doc) :
  providers_of docs = nub (map provider docs) /\
  NoDup (providers_of docs) /\
  (forall p, In p (providers_of docs) <-> exists d, In d docs /\ provider d = p).
Proof.
  rewrite providers_of_nub. split; [done|]. split; [apply NoDup_nub|].
  intros p. rewrite In_nub, in_map_iff. naive_solver.
Qed.

(** C4: The two-stage filter of the [applyFilter] handler keeps, in their
    order, exactly the records whose provider is the active tab's (any
    provider for ['all']) and whose type is the type filter (any type for
    the empty filter). *)
Theorem applyFilter_docs_spec (activeProvider filterType : string) (docs : list Doc) :
  applyFilter_docs activeProvider filterType docs =
    List.filter (filter_matches activeProvider filterType) docs /\
  (forall d, In d (applyFilter_docs activeProvider filterType docs) <->
     In d docs /\ (activeProvider = "all" \/ provider d = activeProvider) /\
     (filterType = "" \/ type d = filterType)).
Proof.
  rewrite applyFilter_docs_filter. split; [done|]. intros d. rewrite filter_In. unfold filter_matches.
  rewrite andb_true_iff, !orb_true_iff, !String.eqb_eq. naive_solver.
Qed.

(** C15: A provider tab and the [applyFilter] button agree when the type
    filter is empty: [filterByProvider p] shows what [applyFilter] shows
    with [p] active. *)
Theorem filterByProvider_is_applyFilter (p : string) (docs : list Doc) :
  filterByProvider_docs p docs = applyFilter_docs p "" docs.
Proof.
  unfold filterByProvider_docs, applyFilter_docs. simpl.
  by destruct (String.eqb p "all").
Qed.

(** C9: [deleteDocument] keeps, in order, exactly the records whose id is
    not the deleted one: every record with that id goes (all of them when
    ids collide), and a later [documents.find] of the id finds nothing. *)
Theorem delete_by_id_spec (i : nat) (docs : list Doc) :
  delete_by_id i docs `sublist_of` docs /\
  (forall d, In d (delete_by_id i docs) <-> In d docs /\ id d <> i) /\
  find_by_id i (delete_by_id i docs) = None.
Proof.
  split; [apply filter_sublist_of|]. split; [intros d; apply In_delete_by_id|].
  apply find_by_id_delete.
Qed.

(** C13: Deleting an id that no record has leaves the array unchanged, and
    deleting a present id when ids are unique removes exactly one record. *)
Theorem delete_by_id_length (i : nat) (docs : list Doc) :
  (~ In i (ids docs) -> delete_by_id i docs = docs) /\
  (NoDup (ids docs) -> In i (ids docs) ->
   length (delete_by_id i docs) = length docs - 1).
Proof. split; [apply delete_by_id_absent|apply length_delete_by_id]. Qed.

(** C12: As long as records are only appended with the id
    [documents.length + 1], the ids stay [1..n] and so are unique and the
    new id is fresh. *)
Theorem push_new_id_fresh (docs : list Doc) (d : Doc) :
  ids_sequential docs -> id d = new_doc_id docs ->
  ~ In (new_doc_id docs) (ids docs) /\
  ids_sequential (push_doc docs d) /\ NoDup (ids (push_doc docs d)).
Proof.
  intros Hs Hd. split.
  - rewrite Hs, in_seq. unfold new_doc_id. lia.
  - split; auto with catalog.
Qed.

(** C3: The id policy [documents.length + 1] collides after a deletion:
    deleting any record but the last of ids [1..n] and then adding a record
    gives the new record the id [n] that the last record still has. *)
Theorem delete_then_add_duplicates_id (docs : list Doc) (k : nat) (d : Doc) :
  ids_sequential docs -> 1 <= k < length docs ->
  id d = new_doc_id (delete_by_id k docs) ->
  In (id d) (ids (delete_by_id k docs)) /\
  ~ NoDup (ids (push_doc (delete_by_id k docs) d)).
Proof.
  intros Hs Hk Hd.
  assert (Hin : In (id d) (ids (delete_by_id k docs))).
  { rewrite Hd. unfold new_doc_id.
    rewrite length_delete_by_id by (auto with catalog; rewrite Hs, in_seq; lia).
    rewrite ids_delete_by_id, filter_In, Hs, in_seq.
    split; [lia|]. destruct (Nat.eqb_spec (length docs - 1 + 1) k); [lia|done]. }
  split; [done|]. unfold push_doc. rewrite ids_app. simpl.
  rewrite NoDup_app. intros (_ & Hdis & _). apply (Hdis (id d)).
  - by apply list_elem_of_In.
  - by apply list_elem_of_singleton.
Qed.

(** ** Witnesses: the theorems at the initial array *)

Lemma push_new_id_fresh_witness :
  (ids_sequential initial_documents /\ id (sample_new_doc 4) = new_doc_id initial_documents) /\
  (~ In (new_doc_id initial_documents) (ids initial_documents) /\
   ids_sequential (push_doc initial_documents (sample_new_doc 4)) /\
   NoDup (ids (push_doc initial_documents (sample_new_doc 4)))).
Proof.
  split; [split; reflexivity|].
  apply push_new_id_fresh; reflexivity.
Defined.

Lemma delete_then_add_duplicates_id_witness :
  (ids_sequential initial_documents /\ 1 <= 1 < length initial_documents /\
   id (sample_new_doc 3) = new_doc_id (delete_by_id 1 initial_documents)) /\
  (In (id (sample_new_doc 3)) (ids (delete_by_id 1 initial_documents)) /\
   ~ NoDup (ids (push_doc (delete_by_id 1 initial_documents) (sample_new_doc 3)))).
Proof.
  split; [split; [reflexivity|split; [simpl; lia|reflexivity]]|].
  apply delete_then_add_duplicates_id; [reflexivity|simpl; lia|reflexivity].
Defined.
