(* ===== verification/Render.v ===== *)
(** * The rendering functions of [src/app.js]

    [renderProviderTabs] (lines 51-73) rebuilds the children of
    [#providerTabs]: its [while] loop removes every child but the first
    (the static "Todos" tab of the page), then one inactive tab per
    provider is appended.  [renderDocuments] (lines 84-109) empties
    [#documentsBody] and appends one [<tr>] per record, whose [innerHTML] is
    the template literal of lines 97-106, or the single empty-state row.
    A tab is its [data-provider] attribute, its text and whether it has
    the class [active]; a table row is its [innerHTML] string.  The
    reference scanner [split_quotes]/[row_onclicks] reads a row's quoted
    attribute values back as calls, for the round trip of the ids through
    the markup. *)

From S2P Require Import Prelude Documents Collection.

(** ** Tabs *)

Record Tab := mkTab { data_provider : string; text : string; active : bool }.

#[export] Instance Tab_eq_dec : EqDecision Tab.
Proof. solve_decision. Defined.

(** The static first child of [#providerTabs]: the page's "Todos" tab with
    [data-provider="all"], active when the page loads (lines 55, 164). *)
Definition todos_tab : Tab := mkTab "all" "Todos" true.

(** The tab created for a provider (lines 61-64): class [tab], not active. *)
Definition provider_tab (p : string) : Tab := mkTab p p false.

(** The loop of lines 56-58, [while (children.length > 1) removeChild(
    lastChild)], run for at most [fuel] iterations. *)
Fixpoint remove_extra_tabs (fuel : nat) (tabs : list Tab) : list Tab :=
  match fuel with
  | 0 => tabs
  | S fuel' =>
      if Nat.ltb 1 (length tabs)
      then remove_extra_tabs fuel' (removelast tabs)
      else tabs
  end.

(** [renderProviderTabs] (lines 51-73); the loop gets one iteration per
    child, which is enough (see [remove_extra_tabs_le]). *)
Definition renderProviderTabs (docs : list Doc) (tabs : list Tab) : list Tab :=
  let providers := providers_of docs in
  remove_extra_tabs (length tabs) tabs ++ map provider_tab providers.

(** [classList.remove('active')] on every tab, then [classList.add(
    'active')] on the clicked one (lines 66-67). *)
Definition activate_tab (i : nat) (tabs : list Tab) : list Tab :=
  imap (fun j t => mkTab (data_provider t) (text t) (Nat.eqb j i)) tabs.

(** [document.querySelector('.tab.active')] (line 146): the first tab with
    the class [active], [None] for [null]. *)
Definition active_tab (tabs : list Tab) : option Tab := List.find active tabs.

(** [document.querySelector('.tab[data-provider="all"]')] (line 164). *)
Definition all_tab_index (tabs : list Tab) : option nat :=
  fst <$> list_find (fun t => data_provider t = "all") tabs.

(** ** Table rows *)

Definition dq_char : Ascii.ascii := Ascii.ascii_of_nat 34.
Definition dq : string := String dq_char EmptyString.
Definition nl : string := String (Ascii.ascii_of_nat 10) EmptyString.
Definition spaces (n : nat) : string := String.concat "" (repeat " "%string n).

(** The empty-state row of line 90. *)
Definition empty_row_html : string :=
  "<td colspan=" +:+ dq +:+ "5" +:+ dq +:+ " style=" +:+ dq +:+ "text-align: center;" +:+
  dq +:+ ">No se encontraron documentos</td>".

(** The [onclick] attribute of a row button, [fname(${doc.id})]
    (lines 103-104). *)
Definition onclick_call (fname : string) (i : nat) : string :=
  fname +:+ "(" +:+ js_number_string i +:+ ")".

(** Reading such an attribute back as the browser does: the called name up
    to the first parenthesis and the decimal argument up to the closing
    one, which must end the text. *)
Fixpoint split_call (s : string) : option (string * string) :=
  match s with
  | EmptyString => None
  | String c s' =>
      if Ascii.eqb c (Ascii.ascii_of_nat 40) then Some (EmptyString, s')
      else match split_call s' with
           | Some (f, r) => Some (String c f, r)
           | None => None
           end
  end.

Fixpoint until_close (s : string) : option string :=
  match s with
  | EmptyString => None
  | String c s' =>
      if Ascii.eqb c (Ascii.ascii_of_nat 41)
      then match s' with EmptyString => Some EmptyString | _ => None end
      else option_map (String c) (until_close s')
  end.

Definition parse_call (s : string) : option (string * nat) :=
  match split_call s with
  | Some (f, rest) =>
      match until_close rest with
      | Some digits => option_map (fun n => (f, n)) (js_parse_number digits)
      | None => None
      end
  | None => None
  end.

(** A name the parser can split: no opening parenthesis in it. *)
Fixpoint no_paren (s : string) : bool :=
  match s with
  | EmptyString => true
  | String c s' => negb (Ascii.eqb c (Ascii.ascii_of_nat 40)) && no_paren s'
  end.

(** Whether a text is free of a character. *)
Fixpoint lacks (c : Ascii.ascii) (s : string) : bool :=
  match s with
  | EmptyString => true
  | String c' s' => negb (Ascii.eqb c' c) && lacks c s'
  end.

(** The pieces of a text between its double quotes: a row's quoted
    attribute values are the pieces of odd index. *)
Fixpoint split_quotes (s : string) : list string :=
  match s with
  | EmptyString => [EmptyString]
  | String c s' =>
      if Ascii.eqb c dq_char then EmptyString :: split_quotes s'
      else match split_quotes s' with
           | [] => [String c EmptyString]
           | x :: r => String c x :: r
           end
  end.

Fixpoint odd_items {A} (l : list A) : list A :=
  match l with
  | _ :: x :: r => x :: odd_items r
  | _ => []
  end.

(** Glue a text to the first piece. *)
Definition prepend (s : string) (l : list string) : list string :=
  match l with [] => [s] | x :: r => (s +:+ x) :: r end.

(** The calls a row's quoted attributes make when clicked, in order. *)
Definition row_onclicks (row : string) : list (option (string * nat)) :=
  map parse_call (odd_items (split_quotes row)).

(** The markup the template writes between the text of two cells. *)
Definition cell_break : string := "</td>" +:+ nl +:+ spaces 12 +:+ "<td>".

(** The template literal of lines 97-106. *)
Definition row_html (doc : Doc) : string :=
  nl +:+
  spaces 12 +:+ "<td>" +:+ provider doc +:+ "</td>" +:+ nl +:+
  spaces 12 +:+ "<td>" +:+ name doc +:+ "</td>" +:+ nl +:+
  spaces 12 +:+ "<td>" +:+ type doc +:+ "</td>" +:+ nl +:+
  spaces 12 +:+ "<td>" +:+ date doc +:+ "</td>" +:+ nl +:+
  spaces 12 +:+ "<td>" +:+ nl +:+
  spaces 16 +:+ "<button onclick=" +:+ dq +:+ onclick_call "downloadDocument" (id doc) +:+
    dq +:+ ">Descargar</button>" +:+ nl +:+
  spaces 16 +:+ "<button onclick=" +:+ dq +:+ onclick_call "deleteDocument" (id doc) +:+
    dq +:+ ">Eliminar</button>" +:+ nl +:+
  spaces 12 +:+ "</td>" +:+ nl +:+
  spaces 8.

(** [renderDocuments(docs)] (lines 84-109): the rows of [#documentsBody]. *)
Definition renderDocuments (docs : list Doc) : list string :=
  if Nat.eqb (length docs) 0 then [empty_row_html] else map row_html docs.

(** The tab list properties the page keeps. *)
Definition first_tab_is_todos (ts : list Tab) : Prop :=
  exists b, head ts = Some (mkTab "all" "Todos" b).

Definition at_most_one_active (ts : list Tab) : Prop :=
  length (List.filter active ts) <= 1.

Definition deactivate (t : Tab) : Tab := mkTab (data_provider t) (text t) false.

(** ** Lemmas *)

Lemma length_removelast {A} (l : list A) : length (removelast l) = length l - 1.
Proof.
  destruct l as [|x l] using rev_ind; [done|].
  rewrite removelast_last, length_app. simpl. lia.
Qed.

Lemma remove_extra_tabs_le (fuel : nat) (tabs : list Tab) :
  length tabs <= S fuel -> remove_extra_tabs fuel tabs = firstn 1 tabs.
Proof.
  revert tabs. induction fuel as [|fuel IH]; intros tabs Hlen; simpl.
  - destruct tabs as [|t [|]]; simpl in *; [done|done|lia].
  - destruct (Nat.ltb_spec 1 (length tabs)).
    + rewrite IH by (rewrite length_removelast; lia).
      destruct tabs as [|t [|t' tabs]]; simpl in *; [lia|lia|].
      by destruct tabs.
    + destruct tabs as [|t [|]]; simpl in *; [done|done|lia].
Qed.

Lemma renderProviderTabs_firstn (docs : list Doc) (tabs : list Tab) :
  renderProviderTabs docs tabs = firstn 1 tabs ++ map provider_tab (providers_of docs).
Proof. unfold renderProviderTabs. by rewrite remove_extra_tabs_le by lia. Qed.

Lemma activate_tab_S (i : nat) (t : Tab) (ts : list Tab) :
  activate_tab (S i) (t :: ts) = deactivate t :: activate_tab i ts.
Proof. unfold activate_tab. simpl. f_equal. Qed.

Lemma activate_tab_0 (t : Tab) (ts : list Tab) :
  activate_tab 0 (t :: ts) = mkTab (data_provider t) (text t) true :: map deactivate ts.
Proof.
  unfold activate_tab. simpl. f_equal.
  transitivity (imap (const deactivate) ts); [by apply imap_ext|].
  clear t. induction ts as [|t ts IH]; [done|]. simpl. f_equal. exact IH.
Qed.

Lemma map_data_provider_activate (i : nat) (ts : list Tab) :
  map data_provider (activate_tab i ts) = map data_provider ts.
Proof.
  revert i. induction ts as [|t ts IH]; intros [|i]; [done|done| |].
  - rewrite activate_tab_0. simpl. f_equal. rewrite map_map. by apply map_ext.
  - rewrite activate_tab_S. simpl. by rewrite IH.
Qed.

Lemma first_tab_activate (i : nat) (ts : list Tab) :
  first_tab_is_todos ts -> first_tab_is_todos (activate_tab i ts).
Proof.
  intros [b Hb]. destruct ts as [|t ts]; [done|]. simpl in Hb. simplify_eq.
  destruct i; [rewrite activate_tab_0|rewrite activate_tab_S]; by eexists.
Qed.

Lemma no_active_deactivate (ts : list Tab) : List.filter active (map deactivate ts) = [].
Proof. induction ts; simpl; done. Qed.

Lemma active_count_activate (i : nat) (ts : list Tab) :
  at_most_one_active (activate_tab i ts).
Proof.
  unfold at_most_one_active. revert i. induction ts as [|t ts IH]; intros [|i];
    try (simpl; lia).
  - rewrite activate_tab_0. simpl. rewrite no_active_deactivate. simpl; lia.
  - rewrite activate_tab_S. simpl. apply IH.
Qed.

Lemma at_most_one_active_render (docs : list Doc) (ts : list Tab) :
  at_most_one_active (renderProviderTabs docs ts).
Proof.
  unfold at_most_one_active. rewrite renderProviderTabs_firstn, List.filter_app.
  rewrite (filter_none_true _ (map provider_tab _)).
  - rewrite length_app. destruct ts as [|t ts]; simpl; [lia|]. destruct (active t); simpl; lia.
  - intros x Hx. apply in_map_iff in Hx as (p & <- & _). done.
Qed.

Lemma first_tab_render (docs : list Doc) (ts : list Tab) :
  first_tab_is_todos ts -> first_tab_is_todos (renderProviderTabs docs ts).
Proof.
  intros [b Hb]. rewrite renderProviderTabs_firstn.
  destruct ts as [|t ts]; [done|]. exists b. done.
Qed.

Lemma providers_render (docs : list Doc) (ts : list Tab) :
  ts <> [] ->
  map data_provider (drop 1 (renderProviderTabs docs ts)) = providers_of docs.
Proof.
  intros Hne. rewrite renderProviderTabs_firstn.
  destruct ts as [|t ts]; [done|]. simpl. rewrite drop_0, List.map_map. apply map_id.
Qed.

Lemma first_tab_deactivate (ts : list Tab) :
  first_tab_is_todos ts -> first_tab_is_todos (map deactivate ts).
Proof. intros [b Hb]. destruct ts; simpl in *; simplify_eq. by eexists. Qed.

Lemma all_tab_index_todos (ts : list Tab) :
  first_tab_is_todos ts -> all_tab_index ts = Some 0.
Proof. intros [b Hb]. destruct ts; simpl in *; simplify_eq. reflexivity. Qed.

(** After a re-render only the first tab can be active. *)
Lemma active_tab_render (docs : list Doc) (t : Tab) (ts : list Tab) :
  active_tab (renderProviderTabs docs (t :: ts)) =
  if active t then Some t else None.
Proof.
  rewrite renderProviderTabs_firstn. unfold active_tab. simpl.
  destruct (active t); [done|]. by induction (providers_of docs).
Qed.

(** ** Properties of the rendering *)

(** C16: [renderProviderTabs] terminates with the first child kept as it
    was (its loop runs until one child is left) followed by one inactive
    tab per provider, at the provider's first occurrence in [documents]. *)
Theorem renderProviderTabs_spec (docs : list Doc) (t : Tab) (ts : list Tab) :
  renderProviderTabs docs (t :: ts) = t :: map provider_tab (nub (map provider docs)) /\
  NoDup (map data_provider (drop 1 (renderProviderTabs docs (t :: ts)))).
Proof.
  rewrite renderProviderTabs_firstn, providers_of_nub. split; [done|].
  simpl. rewrite drop_0, List.map_map, map_id. apply NoDup_nub.
Qed.

(** C17: The template pastes the record's text into the row unescaped:
    a provider whose text holds the markup between two cells,
    [a ++ "</td>\n            <td>" ++ b], renders exactly the row of the
    record whose provider is [a] and whose name is [b], that markup and the
    real name: a field's text can close its cell and open the next. *)
Theorem row_html_cell_injection (d : Doc) (a b : string) :
  provider d = a +:+ cell_break +:+ b ->
  row_html d = row_html (mkDoc (id d) a (b +:+ cell_break +:+ name d) (type d) (date d) (file d)).
Proof.
  intros H. unfold row_html. cbn [provider name type date id]. rewrite H. unfold cell_break.
  by rewrite !string_app_assoc.
Qed.

(** [resetFilter]'s tab update makes "Todos" the active tab. *)
Lemma active_tab_reset (ts : list Tab) :
  first_tab_is_todos ts -> active_tab (activate_tab 0 (map deactivate ts)) = Some todos_tab.
Proof.
  intros [b Hb]. destruct ts as [|t ts]; [done|]. simpl in Hb. simplify_eq.
  cbn [map]. rewrite activate_tab_0. reflexivity.
Qed.

Lemma split_call_app (f r : string) :
  no_paren f = true -> split_call (f +:+ "(" +:+ r) = Some (f, r).
Proof.
  induction f as [|c f IH]; intros Hf; [done|]. simpl in Hf |- *.
  apply andb_true_iff in Hf as [Hc Hf]. apply negb_true_iff in Hc.
  rewrite Hc, IH by done. done.
Qed.

Lemma until_close_digits (u : Decimal.uint) :
  until_close (NilEmpty.string_of_uint u +:+ ")") = Some (NilEmpty.string_of_uint u).
Proof. induction u; simpl; rewrite ?IHu; reflexivity. Qed.

(** The id written into a button's [onclick] attribute parses back:
    for a called name without a parenthesis, parsing [name(${id})] gives
    the name and the id. *)
Lemma parse_onclick_call (fname : string) (i : nat) :
  no_paren fname = true -> parse_call (onclick_call fname i) = Some (fname, i).
Proof.
  intros Hf. unfold parse_call, onclick_call. rewrite split_call_app by done.
  unfold js_number_string. rewrite until_close_digits. simpl.
  fold (js_number_string i). by rewrite js_parse_number_string.
Qed.

Lemma lacks_app (c : Ascii.ascii) (s t : string) :
  lacks c (s +:+ t) = lacks c s && lacks c t.
Proof.
  induction s as [|c' s IH]; [done|]. rewrite string_app_cons. simpl.
  by rewrite IH, andb_assoc.
Qed.

Lemma split_quotes_nonempty (s : string) : split_quotes s <> [].
Proof.
  induction s as [|c s IH]; simpl; [done|].
  destruct (Ascii.eqb c dq_char); [done|]. by destruct (split_quotes s).
Qed.

(** A quote-free text only extends the first piece. *)
Lemma split_quotes_lacks (s t : string) :
  lacks dq_char s = true -> split_quotes (s +:+ t) = prepend s (split_quotes t).
Proof.
  induction s as [|c s IH]; intros H.
  - change ("" +:+ t) with t. pose proof (split_quotes_nonempty t).
    by destruct (split_quotes t).
  - rewrite string_app_cons. simpl in H |- *.
    apply andb_true_iff in H as [Hc H]. apply negb_true_iff in Hc. rewrite Hc, IH by done.
    destruct (split_quotes t); simpl; by rewrite ?string_app_cons.
Qed.

Lemma split_quotes_dq (t : string) : split_quotes (dq +:+ t) = "" :: split_quotes t.
Proof. reflexivity. Qed.

Lemma split_quotes_end (s : string) : lacks dq_char s = true -> split_quotes s = [s].
Proof.
  intros H. rewrite <- (string_app_nil_r s) at 1. rewrite split_quotes_lacks by done.
  simpl. by rewrite string_app_nil_r.
Qed.

Lemma lacks_onclick_call (fname : string) (i : nat) :
  lacks dq_char fname = true -> lacks dq_char (onclick_call fname i) = true.
Proof.
  intros H. unfold onclick_call, js_number_string. rewrite !lacks_app, H.
  assert (Hd : forall u, lacks dq_char (NilEmpty.string_of_uint u) = true)
    by (induction u; simpl; rewrite ?IHu; reflexivity).
  by rewrite Hd.
Qed.

(** Split a right-nested concatenation at its quotes, piece by piece. *)
Ltac split_at_quotes :=
  repeat first
    [ rewrite split_quotes_dq
    | rewrite split_quotes_lacks
        by first [assumption | apply lacks_onclick_call; reflexivity | reflexivity] ].

(** ** Round trip *)

(** C25: The buttons of the row a record renders to call the handlers with
    the record's id: reading the row's quoted attribute values back as
    calls gives [downloadDocument(id)] then [deleteDocument(id)], for every
    record whose four text fields hold no double quote. *)
Theorem row_html_onclicks (d : Doc) :
  lacks dq_char (provider d) && lacks dq_char (name d) &&
  lacks dq_char (type d) && lacks dq_char (date d) = true ->
  row_onclicks (row_html d) =
    [Some ("downloadDocument", id d); Some ("deleteDocument", id d)].
Proof.
  rewrite !andb_true_iff. intros [[[Hp Hn] Ht] Hd].
  unfold row_onclicks, row_html. split_at_quotes.
  rewrite split_quotes_end by reflexivity.
  cbn [prepend odd_items map]. rewrite !string_app_nil_r.
  by rewrite !parse_onclick_call by reflexivity.
Qed.

(** ** Witnesses *)

Lemma row_html_cell_injection_witness :
  provider (mkDoc 1 ("A" +:+ cell_break +:+ "B") "C" "Contrato" "2024-01-15" None) =
    "A" +:+ cell_break +:+ "B" /\
  row_html (mkDoc 1 ("A" +:+ cell_break +:+ "B") "C" "Contrato" "2024-01-15" None) =
    row_html (mkDoc 1 "A" ("B" +:+ cell_break +:+ "C") "Contrato" "2024-01-15" None).
Proof.
  split; [reflexivity|].
  apply (row_html_cell_injection (mkDoc 1 ("A" +:+ cell_break +:+ "B") "C" "Contrato"
           "2024-01-15" None) "A" "B"); reflexivity.
Defined.

Lemma row_html_onclicks_witness :
  let d := mkDoc 7 "Proveedor A" "Contrato de Servicios" "Contrato" "2024-01-15" None in
  (lacks dq_char (provider d) && lacks dq_char (name d) &&
   lacks dq_char (type d) && lacks dq_char (date d) = true) /\
  row_onclicks (row_html d) = [Some ("downloadDocument", 7); Some ("deleteDocument", 7)].
Proof. split; [reflexivity|]. apply row_html_onclicks. reflexivity. Defined.
