(* ===== verification/App.v ===== *)
(** * The page: state, event handlers and runs of [src/app.js]

    The state [Page] holds the global [documents] and the parts of the DOM
    that the handlers read or write: the tabs, the table rows, the upload
    form (its four text fields and the selected file), the file-name label,
    the type filter, the [FileReader]s started and not yet loaded, and the
    observable outputs ([alert] messages and the downloads started by
    clicking a link).  Each handler of the source is one function
    [Page -> Result]; a handler that throws leaves the effects it made
    before the throw ([Threw]).  [step] dispatches an [Event], [run] plays
    a list of events the way the browser does: an uncaught exception ends
    the handler, not the page. *)

From S2P Require Import Prelude Documents Collection Render.

(** A file of the file input: its name and the data URL that
    [readAsDataURL] produces for its bytes. *)
Record SelFile := mkSel { sel_name : string; sel_dataURL : string }.

(** The fields of [#documentForm] read by the [onload] callback
    (lines 125-130). *)
Record Form := mkForm {
  providerName : string; docName : string; docType : string; docDate : string;
  files : option SelFile   (** [fileInput.files[0]] *)
}.

Record Page := mkPage {
  documents : list Doc;
  tabs : list Tab;
  tbody : list string;
  form : Form;
  fileNameLabel : string;
  filterType : string;
  readers : list SelFile;      (** pending [FileReader]s, by start order *)
  alerts : list string;
  downloads : list (string * string)  (** [(link.href, link.download)] *)
}.

Inductive JsError := TypeError (msg : string).

Inductive Result :=
  | Done (p : Page)
  | Threw (e : JsError) (p : Page).

Definition result_page (r : Result) : Page :=
  match r with Done p | Threw _ p => p end.

Inductive Field := FProviderName | FDocName | FDocType | FDocDate.

Inductive Event :=
  | DOMContentLoaded
  | FileChange (f : option SelFile)     (** the user picks a file or none *)
  | Input (fld : Field) (v : string)    (** the user types in the form *)
  | SelectFilterType (v : string)
  | TabClick (i : nat)                  (** click on the [i]-th tab *)
  | Submit
  | ReaderLoad (k : nat)                (** the [k]-th pending reader loads *)
  | ApplyFilter
  | ResetFilter
  | DownloadClick (i : nat)             (** [downloadDocument(i)] *)
  | DeleteClick (i : nat) (confirmed : bool).  (** [deleteDocument(i)] *)

(** ** Field updates *)

Definition set_documents (docs : list Doc) (p : Page) : Page :=
  mkPage docs (tabs p) (tbody p) (form p) (fileNameLabel p) (filterType p)
         (readers p) (alerts p) (downloads p).
Definition set_tabs (ts : list Tab) (p : Page) : Page :=
  mkPage (documents p) ts (tbody p) (form p) (fileNameLabel p) (filterType p)
         (readers p) (alerts p) (downloads p).
Definition set_tbody (rows : list string) (p : Page) : Page :=
  mkPage (documents p) (tabs p) rows (form p) (fileNameLabel p) (filterType p)
         (readers p) (alerts p) (downloads p).
Definition set_form (f : Form) (lbl : string) (p : Page) : Page :=
  mkPage (documents p) (tabs p) (tbody p) f lbl (filterType p)
         (readers p) (alerts p) (downloads p).
Definition set_filterType (v : string) (p : Page) : Page :=
  mkPage (documents p) (tabs p) (tbody p) (form p) (fileNameLabel p) v
         (readers p) (alerts p) (downloads p).
Definition set_readers (rs : list SelFile) (p : Page) : Page :=
  mkPage (documents p) (tabs p) (tbody p) (form p) (fileNameLabel p) (filterType p)
         rs (alerts p) (downloads p).
Definition alert (msg : string) (p : Page) : Page :=
  mkPage (documents p) (tabs p) (tbody p) (form p) (fileNameLabel p) (filterType p)
         (readers p) (alerts p ++ [msg]) (downloads p).
Definition add_download (href dl : string) (p : Page) : Page :=
  mkPage (documents p) (tabs p) (tbody p) (form p) (fileNameLabel p) (filterType p)
         (readers p) (alerts p) (downloads p ++ [(href, dl)]).

Definition no_file_label : string := "Ningún archivo seleccionado".

(** [form.reset()]: the fields go back to their initial (empty) values and
    the file input is cleared. *)
Definition reset_form : Form := mkForm "" "" "" "" None.

(** ** Handlers *)

(** [renderProviderTabs(); renderDocuments(documents)] (lines 40-41,
    136-137, 189-190). *)
Definition rerender (p : Page) : Page :=
  set_tbody (renderDocuments (documents p))
    (set_tabs (renderProviderTabs (documents p) (tabs p)) p).

(** [DOMContentLoaded] (lines 39-48). *)
Definition on_DOMContentLoaded (p : Page) : Result := Done (rerender p).

(** The file input's [change] handler (lines 44-47). *)
Definition on_file_change (f : option SelFile) (p : Page) : Result :=
  let fileName := match f with Some f => sel_name f | None => no_file_label end in
  let fm := form p in
  Done (set_form (mkForm (providerName fm) (docName fm) (docType fm) (docDate fm) f)
                 fileName p).

(** Typing in the form. *)
Definition on_input (fld : Field) (v : string) (p : Page) : Result :=
  let fm := form p in
  let fm' := match fld with
    | FProviderName => mkForm v (docName fm) (docType fm) (docDate fm) (files fm)
    | FDocName => mkForm (providerName fm) v (docType fm) (docDate fm) (files fm)
    | FDocType => mkForm (providerName fm) (docName fm) v (docDate fm) (files fm)
    | FDocDate => mkForm (providerName fm) (docName fm) (docType fm) v (files fm)
    end in
  Done (set_form fm' (fileNameLabel p) p).

(** [filterByProvider(provider)] (lines 76-81). *)
Definition filterByProvider (prov : string) (p : Page) : Page :=
  set_tbody (renderDocuments (filterByProvider_docs prov (documents p))) p.

(** The click listener of a provider tab (lines 65-70).  The tabs with such
    a listener are the ones [renderProviderTabs] appended, all but the
    first; clicking the first child, whose listener is not in the source,
    or a position with no tab changes nothing of this model. *)
Definition on_tab_click (i : nat) (p : Page) : Result :=
  match i, tabs p !! i with
  | S _, Some t =>
      Done (filterByProvider (data_provider t) (set_tabs (activate_tab i (tabs p)) p))
  | _, _ => Done p
  end.

(** The [submit] listener (lines 112-142) up to [readAsDataURL]: the load
    itself is the later event [ReaderLoad]. *)
Definition on_submit (p : Page) : Result :=
  match files (form p) with
  | None => Done (alert "Por favor seleccione un archivo" p)
  | Some f => Done (set_readers (readers p ++ [f]) p)
  end.

(** The record the [onload] callback builds (lines 123-133); reading
    [fileInput.files[0].name] throws when no file is selected any more. *)
Definition build_newDoc (p : Page) (result : string) : option Doc :=
  match files (form p) with
  | None => None
  | Some cur =>
      Some {| id := length (documents p) + 1;
              provider := providerName (form p); name := docName (form p);
              type := docType (form p); date := docDate (form p);
              file := Some (File.mk (sel_name cur) result) |}
  end.

(** [reader.onload] (lines 122-140) of the [k]-th pending reader. *)
Definition on_reader_load (k : nat) (p : Page) : Result :=
  match readers p !! k with
  | None => Done p
  | Some f =>
      let p := set_readers (delete k (readers p)) p in
      match build_newDoc p (sel_dataURL f) with
      | None => Threw (TypeError "Cannot read properties of undefined (reading 'name')") p
      | Some newDoc =>
          let p := rerender (set_documents (push_doc (documents p) newDoc) p) in
          Done (set_form reset_form no_file_label p)
      end
  end.

(** The [applyFilter] listener (lines 145-158). *)
Definition on_apply_filter (p : Page) : Result :=
  match active_tab (tabs p) with
  | None => Threw (TypeError "Cannot read properties of null (reading 'getAttribute')") p
  | Some t =>
      Done (set_tbody (renderDocuments
              (applyFilter_docs (data_provider t) (filterType p) (documents p))) p)
  end.

(** The [resetFilter] listener (lines 161-166). *)
Definition on_reset_filter (p : Page) : Result :=
  let p := set_filterType "" p in
  let p := set_tabs (map deactivate (tabs p)) p in
  match all_tab_index (tabs p) with
  | None => Threw (TypeError "Cannot read properties of null (reading 'classList')") p
  | Some i =>
      Done (set_tbody (renderDocuments (documents p)) (set_tabs (activate_tab i (tabs p)) p))
  end.

(** [downloadDocument(id)] (lines 169-183). *)
Definition downloadDocument (i : nat) (p : Page) : Result :=
  match find_by_id i (documents p) with
  | Some d =>
      match file d with
      | Some f =>
          Done (add_download (File.data f)
                  (File.name f ||s ("documento_" +:+ js_number_string i +:+ ".pdf")) p)
      | None => Done (alert "Documento no disponible para descarga" p)
      end
  | None => Done (alert "Documento no disponible para descarga" p)
  end.

(** [deleteDocument(id)] (lines 186-192); [confirmed] is the answer to
    [confirm]. *)
Definition deleteDocument (i : nat) (confirmed : bool) (p : Page) : Result :=
  if confirmed then Done (rerender (set_documents (delete_by_id i (documents p)) p))
  else Done p.

Definition step (p : Page) (e : Event) : Result :=
  match e with
  | DOMContentLoaded => on_DOMContentLoaded p
  | FileChange f => on_file_change f p
  | Input fld v => on_input fld v p
  | SelectFilterType v => Done (set_filterType v p)
  | TabClick i => on_tab_click i p
  | Submit => on_submit p
  | ReaderLoad k => on_reader_load k p
  | ApplyFilter => on_apply_filter p
  | ResetFilter => on_reset_filter p
  | DownloadClick i => downloadDocument i p
  | DeleteClick i c => deleteDocument i c p
  end.

(** The events one after the other, with the errors they threw. *)
Fixpoint run (p : Page) (es : list Event) : Page * list JsError :=
  match es with
  | [] => (p, [])
  | e :: es' =>
      match step p e with
      | Done p' => run p' es'
      | Threw err p' => let '(q, errs) := run p' es' in (q, err :: errs)
      end
  end.

(** The page when the script has run: the initial array, the static
    "Todos" tab, an empty table and form. *)
Definition initial_page : Page :=
  mkPage initial_documents [todos_tab] [] reset_form no_file_label "" [] [] [].

(** The page once the [DOMContentLoaded] handler has run. *)
Definition loaded_page : Page := result_page (on_DOMContentLoaded initial_page).

(** The states the page reaches from the loaded page by user events. *)
Inductive reachable : Page -> Prop :=
  | reachable_init : reachable loaded_page
  | reachable_step p e : reachable p -> reachable (result_page (step p e)).

(** A confirmed [deleteDocument]. *)
Definition confirmed_delete (e : Event) : bool :=
  match e with DeleteClick _ true => true | _ => false end.

Definition scan_pdf : SelFile := mkSel "escaneo.pdf" "data:application/pdf;base64,AAAA".

(** The loaded page with [scan_pdf] chosen in the file input. *)
Definition page_with_file : Page := fst (run loaded_page [FileChange (Some scan_pdf)]).

Definition other_pdf : SelFile := mkSel "otro.pdf" "data:application/pdf;base64,BBBB".

(** The loaded page after adding a record of a provider named ["all"]. *)
Definition page_with_all_provider : Page :=
  fst (run loaded_page [Input FProviderName "all"; FileChange (Some scan_pdf);
                        Submit; ReaderLoad 0]).

(** ** The page invariant *)

Record page_inv (p : Page) : Prop := {
  inv_files : all_have_files (documents p);
  inv_first : first_tab_is_todos (tabs p);
  inv_providers : map data_provider (drop 1 (tabs p)) = providers_of (documents p);
  inv_active : at_most_one_active (tabs p)
}.

Lemma rerender_inv (p : Page) :
  all_have_files (documents p) -> first_tab_is_todos (tabs p) -> page_inv (rerender p).
Proof.
  intros Hf Ht. constructor; simpl; auto using first_tab_render, at_most_one_active_render.
  apply providers_render. destruct Ht as [b Hb]. by destruct (tabs p).
Qed.

Lemma activate_inv (i : nat) (p : Page) :
  page_inv p -> page_inv (set_tabs (activate_tab i (tabs p)) p).
Proof.
  intros [Hf Ht Hp Ha]. constructor; simpl; auto using first_tab_activate, active_count_activate.
  by rewrite <- skipn_map, map_data_provider_activate, skipn_map.
Qed.

Lemma deactivate_inv (p : Page) :
  page_inv p -> page_inv (set_tabs (map deactivate (tabs p)) p).
Proof.
  intros [Hf Ht Hp Ha]. constructor; simpl; auto using first_tab_deactivate.
  - rewrite <- skipn_map, List.map_map. rewrite skipn_map. done.
  - unfold at_most_one_active. rewrite no_active_deactivate. simpl; lia.
Qed.

#[export] Hint Resolve rerender_inv activate_inv deactivate_inv : catalog.

(** Setting a part of the page that the invariant does not read. *)
Ltac inv_frame H :=
  destruct H as [? ? ? ?]; constructor; simpl; assumption.

Lemma step_inv (p : Page) (e : Event) :
  page_inv p -> page_inv (result_page (step p e)).
Proof.
  intros Hinv. pose proof Hinv as [Hf Ht Hp Ha].
  destruct e as [| f | fld v | v | i | | k | | | i | i c]; simpl.
  - apply rerender_inv; done.
  - inv_frame Hinv.
  - destruct fld; inv_frame Hinv.
  - inv_frame Hinv.
  - unfold on_tab_click. destruct i as [|i]; [done|].
    destruct (tabs p !! S i); simpl; [|done].
    pose proof (activate_inv (S i) p Hinv) as H. inv_frame H.
  - unfold on_submit. destruct (files (form p)); simpl; inv_frame Hinv.
  - unfold on_reader_load. destruct (readers p !! k) as [f|]; simpl; [|done].
    unfold build_newDoc. simpl. destruct (files (form p)) as [cur|]; simpl; [|inv_frame Hinv].
    assert (H : page_inv (rerender (set_documents (push_doc (documents p) {|
      id := length (documents p) + 1; provider := providerName (form p);
      name := docName (form p); type := docType (form p); date := docDate (form p);
      file := Some (File.mk (sel_name cur) (sel_dataURL f)) |})
      (set_readers (delete k (readers p)) p)))).
    { apply rerender_inv; simpl; [|done]. apply all_have_files_app; [done|].
      by repeat constructor. }
    inv_frame H.
  - unfold on_apply_filter. destruct (active_tab (tabs p)); simpl; inv_frame Hinv.
  - unfold on_reset_filter. simpl. rewrite all_tab_index_todos by
      (by apply first_tab_deactivate).
    simpl. pose proof (activate_inv 0 _ (deactivate_inv p Hinv)) as H. inv_frame H.
  - unfold downloadDocument. destruct (find_by_id i (documents p)) as [d|];
      [destruct (file d)|]; simpl; inv_frame Hinv.
  - unfold deleteDocument. destruct c; simpl; [|done].
    apply rerender_inv; simpl; [|done]. by apply Forall_filter_bool.
Qed.

Lemma loaded_page_inv : page_inv loaded_page.
Proof. apply rerender_inv; simpl; [by repeat constructor|by eexists]. Qed.

Lemma run_fst (p : Page) (es : list Event) :
  fst (run p es) = fold_left (fun q e => result_page (step q e)) es p.
Proof.
  revert p. induction es as [|e es IH]; intros p; simpl; [done|].
  destruct (step p e) as [q|err q] eqn:Hs; simpl; rewrite <- IH; [done|].
  by destruct (run q es).
Qed.

Lemma reachable_run (p : Page) (es : list Event) :
  reachable p -> reachable (fst (run p es)).
Proof.
  rewrite run_fst. revert p. induction es as [|e es IH]; intros p Hp; simpl; [done|].
  apply IH. by constructor.
Qed.

(** The three ways a step changes [documents]: not at all, an append with
    the id [length + 1] and a file, or a confirmed deletion. *)
Lemma step_documents (p : Page) (e : Event) :
  documents (result_page (step p e)) = documents p \/
  (exists d, id d = new_doc_id (documents p) /\ has_file d = true /\
             documents (result_page (step p e)) = push_doc (documents p) d) \/
  (exists i, e = DeleteClick i true /\
             documents (result_page (step p e)) = delete_by_id i (documents p)).
Proof.
  destruct e as [| f | fld v | v | i | | k | | | i | i c]; simpl; auto.
  - unfold on_tab_click. destruct i as [|i]; [auto|]. destruct (tabs p !! S i); auto.
  - unfold on_submit. destruct (files (form p)); auto.
  - unfold on_reader_load. destruct (readers p !! k) as [f|]; [|auto].
    unfold build_newDoc; cbn [set_readers form files].
    destruct (files (form p)) as [cur|]; [|auto].
    refine (or_intror (or_introl (ex_intro _ _ (conj _ (conj _ eq_refl))))); reflexivity.
  - unfold on_apply_filter. destruct (active_tab (tabs p)); auto.
  - unfold on_reset_filter. destruct (all_tab_index _); auto.
  - unfold downloadDocument. destruct (find_by_id i (documents p)) as [d|];
      [destruct (file d)|]; auto.
  - unfold deleteDocument. destruct c; [right; right; eauto|auto].
Qed.

Lemma step_ids_sequential (p : Page) (e : Event) :
  ids_sequential (documents p) -> confirmed_delete e = false ->
  ids_sequential (documents (result_page (step p e))).
Proof.
  intros Hs Hc. destruct (step_documents p e) as [->|[(d & Hd & _ & ->)|(i & -> & _)]];
    auto with catalog; done.
Qed.

(** Unfold the handlers of a concrete list of events. *)
Ltac unfold_handlers :=
  cbn [run step]; unfold on_submit, on_reader_load, build_newDoc, on_file_change,
    on_tab_click, on_apply_filter, on_reset_filter, downloadDocument,
    deleteDocument, filterByProvider; simpl.

(** ** Properties of the page *)

(** C1: In every state the page reaches, every record has a file, the
    first tab is the page's "Todos" tab, the other tabs are exactly the
    providers of [documents] at their first occurrence, and at most one tab
    is active. *)
Theorem reachable_page_inv (p : Page) : reachable p -> page_inv p.
Proof. induction 1; [apply loaded_page_inv|by apply step_inv]. Qed.

(** C2: As long as the user confirms no deletion, whatever the events and
    their interleaving, the ids of [documents] are [1..n]: unique, in
    order. *)
Theorem ids_unique_without_delete (es : list Event) :
  forallb (fun e => negb (confirmed_delete e)) es = true ->
  ids_sequential (documents (fst (run loaded_page es))) /\
  NoDup (ids (documents (fst (run loaded_page es)))).
Proof.
  intros Hes. assert (Hs : ids_sequential (documents (fst (run loaded_page es)))).
  { rewrite run_fst. assert (H0 : ids_sequential (documents loaded_page)) by done.
    revert H0. generalize loaded_page.
    induction es as [|e es IH]; intros q Hq; simpl in *; [done|].
    apply andb_true_iff in Hes as [He Hes]. apply IH; [done|].
    apply step_ids_sequential; [done|]. by destruct (confirmed_delete e). }
  split; auto with catalog.
Qed.

(** C7: Two submissions of one selected file before the first load: the
    first load appends the record and resets the form, which clears the
    file input; the second load then throws reading [files[0].name] and
    adds nothing. *)
Theorem double_submit_second_load_throws (p : Page) (f : SelFile) :
  files (form p) = Some f -> readers p = [] ->
  let r := run p [Submit; Submit; ReaderLoad 0; ReaderLoad 0] in
  snd r = [TypeError "Cannot read properties of undefined (reading 'name')"] /\
  length (documents (fst r)) = S (length (documents p)) /\ readers (fst r) = [].
Proof.
  intros Hf Hr. unfold_handlers. repeat progress (rewrite ?Hf, ?Hr; simpl).
  split; [done|]. unfold push_doc. rewrite length_app. simpl. split; [lia|done].
Qed.

(** C8: The recorded file name is read when the load completes, not when
    the form is submitted: choosing another file between [submit] and the
    load stores the new file's name with the first file's data. *)
Theorem file_name_read_at_load (p : Page) (f g : SelFile) :
  files (form p) = Some f -> readers p = [] ->
  exists d, documents (fst (run p [Submit; FileChange (Some g); ReaderLoad 0])) =
            push_doc (documents p) d /\
            file d = Some (File.mk (sel_name g) (sel_dataURL f)).
Proof.
  intros Hf Hr. unfold_handlers. rewrite Hf. simpl. rewrite Hr. simpl.
  eexists. split; reflexivity.
Qed.

(** C11: Submitting with no file selected only alerts: the documents, the
    pending readers and the table are unchanged and nothing is thrown. *)
Theorem submit_without_file_alerts (p : Page) :
  files (form p) = None ->
  run p [Submit] = (alert "Por favor seleccione un archivo" p, []).
Proof. intros Hf. simpl. unfold on_submit. by rewrite Hf. Qed.

(** C6: Once a provider tab is active, any confirmed deletion (of any id,
    even one no record has) re-renders the tabs without an active one, and
    the [applyFilter] button then throws on [null.getAttribute]. *)
Theorem apply_filter_throws_after_rerender (p : Page) (i j : nat) (t : Tab) :
  tabs p !! S i = Some t ->
  snd (run p [TabClick (S i); DeleteClick j true; ApplyFilter]) =
    [TypeError "Cannot read properties of null (reading 'getAttribute')"].
Proof.
  intros Ht. unfold_handlers. rewrite Ht. simpl.
  destruct (tabs p) as [|t0 ts]; [done|]. by rewrite activate_tab_S, active_tab_render.
Qed.

(** C14: A provider literally named ["all"] gets a tab, but clicking it
    shows every record, of every provider: [filterByProvider] takes its
    name for the "Todos" sentinel. *)
Theorem provider_named_all_unfilterable (p : Page) (i : nat) (t : Tab) :
  tabs p !! S i = Some t -> data_provider t = "all" ->
  tbody (fst (run p [TabClick (S i)])) = renderDocuments (documents p).
Proof. intros Ht Hp. unfold_handlers. rewrite Ht. simpl. by rewrite Hp. Qed.

(** C10: After a confirmed deletion of an id, downloading that id finds no
    record: it alerts "Documento no disponible para descarga" and starts no
    download. *)
Theorem download_after_delete_unavailable (p : Page) (i : nat) :
  let q := fst (run p [DeleteClick i true; DownloadClick i]) in
  alerts q = alerts p ++ ["Documento no disponible para descarga"] /\
  downloads q = downloads p /\ documents q = delete_by_id i (documents p).
Proof. unfold_handlers. by rewrite find_by_id_delete. Qed.

(** ** Witnesses: the theorems at pages the program reaches *)

Lemma reachable_page_inv_witness : reachable loaded_page /\ page_inv loaded_page.
Proof. split; [apply reachable_init|apply reachable_page_inv, reachable_init]. Defined.

Lemma ids_unique_without_delete_witness :
  let es := [FileChange (Some scan_pdf); Submit; DeleteClick 1 false; ReaderLoad 0] in
  forallb (fun e => negb (confirmed_delete e)) es = true /\
  ids_sequential (documents (fst (run loaded_page es))) /\
  NoDup (ids (documents (fst (run loaded_page es)))).
Proof. split; [reflexivity|]. apply ids_unique_without_delete. reflexivity. Defined.

Lemma double_submit_second_load_throws_witness :
  (files (form page_with_file) = Some scan_pdf /\ readers page_with_file = []) /\
  let r := run page_with_file [Submit; Submit; ReaderLoad 0; ReaderLoad 0] in
  snd r = [TypeError "Cannot read properties of undefined (reading 'name')"] /\
  length (documents (fst r)) = S (length (documents page_with_file)) /\ readers (fst r) = [].
Proof.
  split; [split; reflexivity|].
  apply (double_submit_second_load_throws page_with_file scan_pdf); reflexivity.
Defined.

Lemma file_name_read_at_load_witness :
  (files (form page_with_file) = Some scan_pdf /\ readers page_with_file = []) /\
  exists d, documents (fst (run page_with_file [Submit; FileChange (Some other_pdf); ReaderLoad 0])) =
            push_doc (documents page_with_file) d /\
            file d = Some (File.mk "otro.pdf" "data:application/pdf;base64,AAAA").
Proof.
  split; [split; reflexivity|].
  apply (file_name_read_at_load page_with_file scan_pdf other_pdf); reflexivity.
Defined.

Lemma submit_without_file_alerts_witness :
  files (form loaded_page) = None /\
  run loaded_page [Submit] = (alert "Por favor seleccione un archivo" loaded_page, []).
Proof. split; [reflexivity|]. apply submit_without_file_alerts. reflexivity. Defined.

Lemma apply_filter_throws_after_rerender_witness :
  tabs loaded_page !! 1 = Some (provider_tab "Proveedor A") /\
  snd (run loaded_page [TabClick 1; DeleteClick 42 true; ApplyFilter]) =
    [TypeError "Cannot read properties of null (reading 'getAttribute')"].
Proof.
  split; [reflexivity|]. apply (apply_filter_throws_after_rerender _ 0 42 (provider_tab "Proveedor A")).
  reflexivity.
Defined.

Lemma provider_named_all_unfilterable_witness :
  (tabs page_with_all_provider !! 3 = Some (provider_tab "all") /\
   data_provider (provider_tab "all") = "all") /\
  tbody (fst (run page_with_all_provider [TabClick 3])) =
    renderDocuments (documents page_with_all_provider).
Proof.
  split; [split; [vm_compute; reflexivity|reflexivity]|].
  apply (provider_named_all_unfilterable _ 2 (provider_tab "all")); [vm_compute|]; reflexivity.
Defined.

(** ** Pending reads, filters, well-formed records *)

(** A record as the spec's data model requires it: a positive id and a
    file payload. *)
Definition doc_well_formed (d : Doc) : bool := Nat.leb 1 (id d) && has_file d.

Lemma reader_load_head (p : Page) (f : SelFile) (rs : list SelFile) :
  readers p = f :: rs ->
  match step p (ReaderLoad 0) with
  | Done q => readers q = rs /\ length (documents q) = S (length (documents p))
  | Threw _ q => readers q = rs /\ documents q = documents p
  end.
Proof.
  intros Hr. cbn [step]. unfold on_reader_load. rewrite Hr. simpl.
  unfold build_newDoc. simpl. destruct (files (form p)); simpl; [|done].
  unfold push_doc. rewrite length_app. simpl. split; [done|lia].
Qed.

Lemma step_well_formed (p : Page) (e : Event) :
  Forall (fun d => doc_well_formed d = true) (documents p) ->
  Forall (fun d => doc_well_formed d = true) (documents (result_page (step p e))).
Proof.
  intros H. destruct (step_documents p e) as [->|[(d & Hd & Hf & ->)|(i & _ & ->)]]; [done| |].
  - apply Forall_app_2; [done|]. constructor; [|done].
    unfold doc_well_formed. rewrite Hd, Hf. unfold new_doc_id.
    apply andb_true_iff. split; [apply Nat.leb_le; lia|done].
  - by apply Forall_filter_bool.
Qed.

Lemma all_tab_index_deactivate (ts : list Tab) :
  first_tab_is_todos ts -> all_tab_index (map deactivate ts) = Some 0.
Proof. intros H. by apply all_tab_index_todos, first_tab_deactivate. Qed.

(** C21: Every pending [FileReader] completes: loading the first pending
    read as many times as there are pending reads empties the queue, and
    each read ends in exactly one appended record or one thrown error. *)
Theorem pending_reads_complete (p : Page) :
  let r := run p (repeat (ReaderLoad 0) (length (readers p))) in
  readers (fst r) = [] /\
  length (documents (fst r)) + length (snd r) = length (documents p) + length (readers p).
Proof.
  remember (readers p) as rs eqn:Hrs. revert p Hrs.
  induction rs as [|f rs IH]; intros p Hrs; [simpl; split; [by rewrite <- Hrs|lia]|].
  cbn [length repeat run].
  pose proof (reader_load_head p f rs (eq_sym Hrs)) as Hl.
  destruct (step p (ReaderLoad 0)) as [q|err q]; destruct Hl as [Hq Hd].
  - destruct (IH q (eq_sym Hq)) as [H1 H2]. split; [done|]. simpl in *. lia.
  - specialize (IH q (eq_sym Hq)). destruct (run q _) as [q' errs] eqn:Hrun.
    simpl in *. rewrite Hd in IH. destruct IH as [H1 H2]. split; [done|]. lia.
Qed.

(** C22: [resetFilter] followed by [applyFilter] never throws on a page
    whose first tab is "Todos", even after a re-render left no tab active:
    the type filter is cleared, "Todos" is the active tab and the table
    shows every record. *)
Theorem reset_then_apply_recovers (p : Page) :
  first_tab_is_todos (tabs p) ->
  let r := run p [ResetFilter; ApplyFilter] in
  snd r = [] /\ filterType (fst r) = "" /\
  active_tab (tabs (fst r)) = Some todos_tab /\
  tbody (fst r) = renderDocuments (documents p).
Proof.
  intros Ht. unfold_handlers. rewrite all_tab_index_deactivate by done. simpl.
  rewrite active_tab_reset by done. simpl.
  rewrite applyFilter_docs_filter, filter_all_true by (intros; apply filter_matches_all_any).
  split; [done|]. split; [done|]. split; [by apply active_tab_reset|done].
Qed.

(** C23: With "Todos" active, choosing a type and applying the filter shows
    exactly the records of that type, in order; when no record has it, the
    table holds only the empty-state row. *)
Theorem type_filter_from_todos (p : Page) (t : string) :
  active_tab (tabs p) = Some todos_tab -> t <> "" ->
  let rows := tbody (fst (run p [SelectFilterType t; ApplyFilter])) in
  rows = renderDocuments (List.filter (fun d => type d === t) (documents p)) /\
  ((forall d, In d (documents p) -> type d <> t) -> rows = [empty_row_html]).
Proof.
  intros Ha Ht. unfold_handlers. rewrite Ha. simpl.
  assert (Heq : applyFilter_docs "all" t (documents p) =
                List.filter (fun d => type d === t) (documents p)).
  { rewrite applyFilter_docs_filter. apply filter_ext. intros d.
    unfold filter_matches. simpl. by destruct (String.eqb_spec t ""). }
  rewrite Heq. split; [done|]. intros Hnone.
  rewrite filter_none_true; [done|]. intros d Hd. by apply String.eqb_neq, Hnone.
Qed.

(** C24: Every record of every reachable page is well formed as the spec's
    data model requires: a positive id and a file payload. *)
Theorem reachable_docs_well_formed (p : Page) :
  reachable p -> Forall (fun d => doc_well_formed d = true) (documents p).
Proof.
  induction 1 as [|p e _ IH]; [by repeat constructor|]. by apply step_well_formed.
Qed.

(** ** Witnesses of the second group *)

Lemma reset_then_apply_recovers_witness :
  let p := fst (run loaded_page [TabClick 1; DeleteClick 42 true]) in
  first_tab_is_todos (tabs p) /\
  let r := run p [ResetFilter; ApplyFilter] in
  snd r = [] /\ filterType (fst r) = "" /\
  active_tab (tabs (fst r)) = Some todos_tab /\
  tbody (fst r) = renderDocuments (documents p).
Proof.
  assert (H : first_tab_is_todos (tabs (fst (run loaded_page [TabClick 1; DeleteClick 42 true]))))
    by (exists false; reflexivity).
  split; [exact H|]. apply reset_then_apply_recovers, H.
Defined.

Lemma type_filter_from_todos_witness :
  (active_tab (tabs loaded_page) = Some todos_tab /\ "Factura" <> "") /\
  let rows := tbody (fst (run loaded_page [SelectFilterType "Factura"; ApplyFilter])) in
  rows = renderDocuments (List.filter (fun d => type d === "Factura") (documents loaded_page)) /\
  ((forall d, In d (documents loaded_page) -> type d <> "Factura") -> rows = [empty_row_html]).
Proof.
  split; [split; [reflexivity|discriminate]|].
  apply type_filter_from_todos; [reflexivity|discriminate].
Defined.

Lemma reachable_docs_well_formed_witness :
  reachable loaded_page /\ Forall (fun d => doc_well_formed d = true) (documents loaded_page).
Proof. split; [constructor|apply reachable_docs_well_formed; constructor]. Defined.
